(** * The packaging manifest [setup.py] of the DemoPackage template

    The repository consists of one Python script.  It builds one
    [Extension] descriptor, reads [README.rst] from the working directory
    and hands eight keyword arguments to [distutils.core.setup].

    The script is embedded as a computation in a small exception-and-state
    monad over a [world]: the files visible from the working directory and
    the log of [setup] calls made so far.  Everything [distutils] does
    after it has received the arguments (command line, compiler, linker)
    lies outside the repository and is not part of the model. *)

From stdpp Require Import base option strings list gmap.

Local Open Scope string_scope.

(** ** Data handed to distutils *)

(** [distutils.core.Extension], restricted to the attributes the manifest
    sets.  The constructor takes them in the order of the call in
    [setup.py]: the positional module name, then [define_macros],
    [include_dirs] and [sources]. *)
Module Ext.

Record t : Type := Extension {
  name : string;
  define_macros : list (string * string);
  include_dirs : list string;
  sources : list string
}.

#[global] Instance t_eq_dec : EqDecision t.
Proof. solve_decision. Defined.

End Ext.

(** The keyword arguments of the one [setup(...)] call. *)
Record kwargs : Type := Kwargs {
  name : string;
  version : string;
  description : string;
  author : string;
  author_email : string;
  url : string;
  long_description : string;
  ext_modules : list Ext.t
}.

#[global] Instance kwargs_eq_dec : EqDecision kwargs.
Proof. solve_decision. Defined.

(** ** The world of the script *)

(** What a path relative to the working directory names: a regular file,
    with the text a text-mode [read()] returns for it, or a directory. *)
Inductive node : Type :=
  | File (content : string)
  | Dir.

(** The two exceptions the built-in [open] raises on the paths of the
    model.  Failures that depend on permissions or on the encoding of the
    file have no counterpart here: a [File] is a file that can be opened
    and decoded. *)
Inductive exn : Type :=
  | FileNotFoundError (path : string)
  | IsADirectoryError (path : string).

Record world : Type := World {
  fs : gmap string node;
  registered : list kwargs
}.

(** The object [open] returns: the file's name and its text. *)
Record TextIOWrapper : Type := TextIO {
  io_name : string;
  io_text : string
}.

(** ** Exceptions and state *)

Definition M (A : Type) : Type := world → (exn + A) * world.

Definition ret {A} (a : A) : M A := λ w, (inr a, w).

Definition raise {A} (e : exn) : M A := λ w, (inl e, w).

Definition bind {A B} (m : M A) (k : A → M B) : M B := λ w,
  match m w with
  | (inl e, w') => (inl e, w')
  | (inr a, w') => k a w'
  end.

Notation "'do' x <- m ; k" := (bind m (λ x, k))
  (at level 10, x name, m at level 100, k at level 200, only parsing).

(** ** Built-ins and the distutils entry point *)

(** [open(file)] in the default mode ["r"]. *)
Definition open (file : string) : M TextIOWrapper := λ w,
  match fs w !! file with
  | None => raise (FileNotFoundError file) w
  | Some Dir => raise (IsADirectoryError file) w
  | Some (File text) => ret (TextIO file text) w
  end.

(** [f.read()] on a freshly opened file: the whole text. *)
Definition read (f : TextIOWrapper) : M string := ret (io_text f).

(** [setup] seen from the manifest: the call reaches distutils with the
    given keyword arguments.  The log keeps the calls in the order they are
    made.  What distutils goes on to do with them, and how the process ends
    after the call, is not modelled. *)
Definition setup (kw : kwargs) : M unit := λ w,
  (inr (), World (fs w) (registered w ++ [kw])).

(** ** The manifest *)

Definition module1 : Ext.t :=
  Ext.Extension
    "DemoPackage"
    [("USE_PRINTER", "1")]
    ["include"]
    ["src/demo.c"].

(** The keyword arguments of the call, once [open("README.rst").read()]
    has produced [text]. *)
Definition setup_kwargs (text : string) : kwargs :=
  {| name := "DemoPackage";
     version := "1.0";
     description := "This is a demo package";
     author := "<first> <last>";
     author_email := "person@site.com";
     url := "https://docs.python.org/extending/buildling";
     long_description := text;
     ext_modules := [module1] |}.

(** The module body.  Python evaluates the arguments of a call before the
    call: the only argument with an effect is [long_description]. *)
Definition setup_py : M unit :=
  do f <- open "README.rst";
  do text <- read f;
  setup (setup_kwargs text).

(** One run of the script in a fresh interpreter: nothing is registered
    when it starts. *)
Definition evaluate (files : gmap string node) : (exn + unit) * world :=
  setup_py (World files []).

Definition outcome (files : gmap string node) : exn + unit :=
  fst (evaluate files).

Definition calls (files : gmap string node) : list kwargs :=
  registered (snd (evaluate files)).

(** The expression [open("README.rst").read()] on its own. *)
Definition read_readme (files : gmap string node) : exn + string :=
  fst ((do f <- open "README.rst"; read f) (World files [])).

(** ** Predicates on the file system *)

Definition is_file (files : gmap string node) (p : string) : bool :=
  match files !! p with
  | Some (File _) => true
  | _ => false
  end.

Definition is_dir (files : gmap string node) (p : string) : bool :=
  match files !! p with
  | Some Dir => true
  | _ => false
  end.

(** The macro definitions as the mapping from macro name to value that the
    compiler command line is built from. *)
Definition macro_table (e : Ext.t) : gmap string string :=
  list_to_map (Ext.define_macros e).

(** ** What the build tool makes of a call *)





(** ** Sample working directories *)

(** The repository as it is checked out: the readme is there, the C source
    and the header directory are not. *)
Definition checkout : gmap string node :=
  {[ "README.rst" := File "Demo package" ]}.

(** A checkout whose readme is an empty file. *)
Definition blank_readme : gmap string node :=
  {[ "README.rst" := File "" ]}.

(** A complete tree: readme, C source and header directory. *)
Definition full_tree : gmap string node :=
  <[ "src/demo.c" := File "#include <Python.h>" ]>
    (<[ "src" := Dir ]> (<[ "include" := Dir ]> checkout)).

(** The C source and the headers without a readme. *)
Definition no_readme : gmap string node :=
  <[ "src/demo.c" := File "#include <Python.h>" ]>
    (<[ "src" := Dir ]> {[ "include" := Dir ]}).

(** A tree in which the name of the readme is taken by a directory. *)
Definition readme_is_dir : gmap string node :=
  <[ "src/demo.c" := File "#include <Python.h>" ]> {[ "README.rst" := Dir ]}.

(** * Properties of the manifest *)

(** ** How a run goes, by what [README.rst] is *)

Section Runs.

Variable w : world.

Lemma setup_py_file text :
  fs w !! "README.rst" = Some (File text) →
  setup_py w = (inr (), World (fs w) (registered w ++ [setup_kwargs text])).
Proof. intros E. unfold setup_py, bind, open. now rewrite E. Qed.

Lemma setup_py_missing :
  fs w !! "README.rst" = None →
  setup_py w = (inl (FileNotFoundError "README.rst"), w).
Proof. intros E. unfold setup_py, bind, open. now rewrite E. Qed.

Lemma setup_py_directory :
  fs w !! "README.rst" = Some Dir →
  setup_py w = (inl (IsADirectoryError "README.rst"), w).
Proof. intros E. unfold setup_py, bind, open. now rewrite E. Qed.

End Runs.

Lemma calls_file files text :
  files !! "README.rst" = Some (File text) → calls files = [setup_kwargs text].
Proof.
  intros E. unfold calls, evaluate.
  now rewrite (setup_py_file (World files []) text E).
Qed.

Lemma outcome_file files text :
  files !! "README.rst" = Some (File text) → outcome files = inr ().
Proof.
  intros E. unfold outcome, evaluate.
  now rewrite (setup_py_file (World files []) text E).
Qed.

(** Whatever reaches [setup] was built from the text of a readable
    [README.rst]. *)
Lemma calls_inv files kw :
  kw ∈ calls files →
  ∃ text, files !! "README.rst" = Some (File text) ∧ kw = setup_kwargs text.
Proof.
  unfold calls, evaluate. intros Hin.
  destruct (files !! "README.rst") as [[text|]|] eqn:E.
  - exists text. split; [reflexivity|].
    rewrite (setup_py_file (World files []) text E) in Hin.
    simpl in Hin. now apply list_elem_of_singleton in Hin.
  - rewrite (setup_py_directory (World files []) E) in Hin.
    simpl in Hin. now apply not_elem_of_nil in Hin.
  - rewrite (setup_py_missing (World files []) E) in Hin.
    simpl in Hin. now apply not_elem_of_nil in Hin.
Qed.

Lemma read_readme_file files text :
  files !! "README.rst" = Some (File text) → read_readme files = inr text.
Proof. intros E. unfold read_readme, bind, open. simpl. now rewrite E. Qed.

Lemma read_readme_inv files text :
  read_readme files = inr text → files !! "README.rst" = Some (File text).
Proof.
  unfold read_readme, bind, open. simpl.
  destruct (files !! "README.rst") as [[t|]|]; simpl; congruence.
Qed.

(** ** The declared names *)



(** ** The extension list *)

(** C2: the [ext_modules] list passed to [setup] has length one and its
    only element is the descriptor [module1] built by the manifest. *)
Theorem one_extension_declared files kw :
  kw ∈ calls files →
  length (ext_modules kw) = 1 ∧ ext_modules kw = [module1].
Proof.
  intros Hin. destruct (calls_inv _ _ Hin) as (text & _ & ->).
  split; reflexivity.
Qed.

Lemma one_extension_declared_witness :
  setup_kwargs "Demo package" ∈ calls full_tree ∧
  ext_modules (setup_kwargs "Demo package") = [module1].
Proof.
  assert (Hin : setup_kwargs "Demo package" ∈ calls full_tree)
    by (vm_compute; left).
  split; [exact Hin|].
  exact (proj2 (one_extension_declared _ _ Hin)).
Defined.

(** ** The long description *)

(** C3, as stated, fails: with an empty [README.rst] the manifest runs to
    the end and passes the empty string as long description. *)
Lemma long_description_may_be_empty :
  ¬ (∀ files kw,
       kw ∈ calls files →
       read_readme files = inr (long_description kw) ∧
       long_description kw ≠ "").
Proof.
  intros claim.
  destruct (claim blank_readme (setup_kwargs "")) as [_ nonempty].
  - vm_compute. left.
  - now apply nonempty.
Qed.

(** C3, amended: the long description passed to [setup] is, verbatim and in
    full, the text read from [README.rst]; it is non-empty exactly when
    that text is, and the empty string for an empty readme. *)
Theorem long_description_is_readme files text :
  files !! "README.rst" = Some (File text) →
  read_readme files = inr text ∧
  outcome files = inr () ∧
  (∃ kw, calls files = [kw] ∧ long_description kw = text) ∧
  (∀ kw, kw ∈ calls files →
     long_description kw = text ∧ (long_description kw ≠ "" ↔ text ≠ "")).
Proof.
  intros E. split; [now apply read_readme_file|].
  split; [now apply (outcome_file files text)|].
  rewrite (calls_file files text E). split.
  - now exists (setup_kwargs text).
  - intros kw Hin. apply list_elem_of_singleton in Hin. now subst kw.
Qed.

Lemma long_description_is_readme_witness :
  full_tree !! "README.rst" = Some (File "Demo package") ∧
  read_readme full_tree = inr "Demo package".
Proof.
  assert (E : full_tree !! "README.rst" = Some (File "Demo package"))
    by (vm_compute; reflexivity).
  split; [exact E|].
  exact (proj1 (long_description_is_readme full_tree "Demo package" E)).
Defined.

(** C4: without a [README.rst] the [open] raises [FileNotFoundError], the
    manifest does not catch it, [setup] is never reached and the world is
    left as it was: nothing is registered. *)
Theorem missing_readme_registers_nothing w :
  fs w !! "README.rst" = None →
  fst (setup_py w) = inl (FileNotFoundError "README.rst") ∧
  snd (setup_py w) = w ∧
  registered (snd (setup_py w)) = registered w ∧
  outcome (fs w) = inl (FileNotFoundError "README.rst") ∧
  calls (fs w) = [].
Proof.
  intros E. rewrite (setup_py_missing w E). repeat split.
  - unfold outcome, evaluate.
    now rewrite (setup_py_missing (World (fs w) []) E).
  - unfold calls, evaluate.
    now rewrite (setup_py_missing (World (fs w) []) E).
Qed.

Lemma missing_readme_registers_nothing_witness :
  fs (World no_readme []) !! "README.rst" = None ∧
  calls no_readme = [].
Proof.
  assert (E : fs (World no_readme []) !! "README.rst" = None)
    by (vm_compute; reflexivity).
  split; [exact E|].
  exact (proj2 (proj2 (proj2 (proj2
    (missing_readme_registers_nothing (World no_readme []) E))))).
Defined.

(** ** The manifest looks at [README.rst] and at nothing else *)

Lemma evaluate_readme_only files1 files2 :
  files1 !! "README.rst" = files2 !! "README.rst" →
  outcome files1 = outcome files2 ∧ calls files1 = calls files2.
Proof.
  intros E. unfold outcome, calls, evaluate.
  destruct (files2 !! "README.rst") as [[text|]|] eqn:E2.
  - rewrite (setup_py_file (World files1 []) text E).
    now rewrite (setup_py_file (World files2 []) text E2).
  - rewrite (setup_py_directory (World files1 []) E).
    now rewrite (setup_py_directory (World files2 []) E2).
  - rewrite (setup_py_missing (World files1 []) E).
    now rewrite (setup_py_missing (World files2 []) E2).
Qed.

Lemma calls_delete_other files p :
  p ≠ "README.rst" → calls (delete p files) = calls files.
Proof.
  intros Hne. apply evaluate_readme_only. now apply lookup_delete_ne.
Qed.

(** ** Sources and include directories *)

(** The only extension that can reach [setup] is [module1]. *)
Lemma declared_extension files kw e :
  kw ∈ calls files → e ∈ ext_modules kw → e = module1.
Proof.
  intros Hin He. destruct (calls_inv _ _ Hin) as (text & _ & ->).
  simpl in He. now apply list_elem_of_singleton in He.
Qed.

(** C7: the descriptor's source list is exactly ["src/demo.c"] and its
    include directory list exactly ["include"], on the descriptor itself
    and on every extension that reaches [setup]. *)
Theorem sources_and_include_dirs files kw e :
  kw ∈ calls files → e ∈ ext_modules kw →
  Ext.sources module1 = ["src/demo.c"] ∧
  Ext.include_dirs module1 = ["include"] ∧
  Ext.sources e = ["src/demo.c"] ∧
  Ext.include_dirs e = ["include"].
Proof.
  intros Hin He. now rewrite (declared_extension _ _ _ Hin He).
Qed.

Lemma sources_and_include_dirs_witness :
  setup_kwargs "Demo package" ∈ calls full_tree ∧
  module1 ∈ ext_modules (setup_kwargs "Demo package") ∧
  Ext.sources module1 = ["src/demo.c"] ∧
  Ext.include_dirs module1 = ["include"].
Proof.
  assert (Hin : setup_kwargs "Demo package" ∈ calls full_tree)
    by (vm_compute; left).
  assert (He : module1 ∈ ext_modules (setup_kwargs "Demo package"))
    by (simpl; left).
  destruct (sources_and_include_dirs _ _ _ Hin He) as (Hs & Hi & _).
  repeat split; assumption.
Defined.

(** C5, as stated, fails: in a checkout that has the readme but not the C
    source the manifest runs to the end and declares a source path that
    names no file. *)
Lemma listed_source_may_be_absent :
  ¬ (∀ files kw e,
       kw ∈ calls files → e ∈ ext_modules kw →
       Ext.sources e ≠ [] ∧
       ∀ p, p ∈ Ext.sources e → is_file files p = true).
Proof.
  intros claim.
  destruct (claim checkout (setup_kwargs "Demo package") module1)
    as [_ present].
  - vm_compute. left.
  - simpl. left.
  - specialize (present "src/demo.c"). simpl in present.
    assert (absent : is_file checkout "src/demo.c" = false)
      by (vm_compute; reflexivity).
    rewrite absent in present. discriminate present. left.
Qed.

(** C5, amended: the declared source list is non-empty; its paths all name
    existing files exactly when the working directory holds a regular file
    at "src/demo.c", which the manifest neither checks nor needs: without
    the listed file it passes the same arguments to [setup]. *)
Theorem sources_nonempty files kw e :
  kw ∈ calls files → e ∈ ext_modules kw →
  Ext.sources e ≠ [] ∧
  ((∀ p, p ∈ Ext.sources e → is_file files p = true) ↔
   is_file files "src/demo.c" = true) ∧
  (∀ p, p ∈ Ext.sources e → calls (delete p files) = calls files).
Proof.
  intros Hin He.
  rewrite (declared_extension _ _ _ Hin He). simpl.
  split; [discriminate|]. split; [split|].
  - intros present. apply present. left.
  - intros present p Hp. apply list_elem_of_singleton in Hp. now subst p.
  - intros p Hp. apply list_elem_of_singleton in Hp. subst p.
    now apply calls_delete_other.
Qed.

Lemma sources_nonempty_witness :
  setup_kwargs "Demo package" ∈ calls full_tree ∧
  module1 ∈ ext_modules (setup_kwargs "Demo package") ∧
  Ext.sources module1 ≠ [].
Proof.
  assert (Hin : setup_kwargs "Demo package" ∈ calls full_tree)
    by (vm_compute; left).
  assert (He : module1 ∈ ext_modules (setup_kwargs "Demo package"))
    by (simpl; left).
  split; [exact Hin|]. split; [exact He|].
  exact (proj1 (sources_nonempty _ _ _ Hin He)).
Defined.

(** C6, as stated, fails: in a checkout without an "include" directory the
    manifest runs to the end and declares an include path that names no
    directory. *)
Lemma include_dir_may_be_absent :
  ¬ (∀ files kw e,
       kw ∈ calls files → e ∈ ext_modules kw →
       ∀ d, d ∈ Ext.include_dirs e → is_dir files d = true).
Proof.
  intros claim.
  assert (absent : is_dir checkout "include" = false)
    by (vm_compute; reflexivity).
  rewrite (claim checkout (setup_kwargs "Demo package") module1) in absent.
  - discriminate absent.
  - vm_compute. left.
  - simpl. left.
  - simpl. left.
Qed.

(** C6, amended: the entries of the declared include directory list all
    name existing directories exactly when the working directory holds a
    directory "include", which the manifest neither checks nor needs:
    without it the same arguments reach [setup]. *)
Theorem include_dirs_resolve files kw e :
  kw ∈ calls files → e ∈ ext_modules kw →
  ((∀ d, d ∈ Ext.include_dirs e → is_dir files d = true) ↔
   is_dir files "include" = true) ∧
  (∀ d, d ∈ Ext.include_dirs e → calls (delete d files) = calls files).
Proof.
  intros Hin He.
  rewrite (declared_extension _ _ _ Hin He). simpl.
  split; [split|].
  - intros present. apply present. left.
  - intros present d Hd. apply list_elem_of_singleton in Hd. now subst d.
  - intros d Hd. apply list_elem_of_singleton in Hd. subst d.
    now apply calls_delete_other.
Qed.

Lemma include_dirs_resolve_witness :
  setup_kwargs "Demo package" ∈ calls full_tree ∧
  module1 ∈ ext_modules (setup_kwargs "Demo package") ∧
  is_dir full_tree "include" = true ∧
  (∀ d, d ∈ Ext.include_dirs module1 → is_dir full_tree d = true).
Proof.
  assert (Hin : setup_kwargs "Demo package" ∈ calls full_tree)
    by (vm_compute; left).
  assert (He : module1 ∈ ext_modules (setup_kwargs "Demo package"))
    by (simpl; left).
  assert (Hd : is_dir full_tree "include" = true)
    by (vm_compute; reflexivity).
  split; [exact Hin|]. split; [exact He|]. split; [exact Hd|].
  exact (proj2 (proj1 (include_dirs_resolve _ _ _ Hin He)) Hd).
Defined.

(** ** Preprocessor macros *)

(** C9: the descriptor defines exactly one macro: the pair of the name
    "USE_PRINTER" and the value "1" is the whole list, and the mapping it
    denotes has that binding and no other. *)
Theorem one_macro_defined :
  Ext.define_macros module1 = [("USE_PRINTER", "1")] ∧
  macro_table module1 = {[ "USE_PRINTER" := "1" ]} ∧
  size (macro_table module1) = 1 ∧
  ∀ m v, macro_table module1 !! m = Some v ↔ m = "USE_PRINTER" ∧ v = "1".
Proof.
  assert (T : macro_table module1 = {[ "USE_PRINTER" := "1" ]}).
  { unfold macro_table. simpl. now rewrite insert_empty. }
  split; [reflexivity|]. split; [exact T|]. rewrite T. split.
  - apply map_size_singleton.
  - intros m v. rewrite lookup_singleton_Some.
    split; intros [-> ->]; split; reflexivity.
Qed.

(** ** Determinism *)

(** C10: two evaluations in which reading [README.rst] yields the same
    string make the same [setup] call: one call each, with the same name,
    version, description, author, author email, url, long description and
    extension list, and they end the same way. *)
Theorem evaluation_deterministic files1 files2 text :
  read_readme files1 = inr text → read_readme files2 = inr text →
  calls files1 = calls files2 ∧
  outcome files1 = outcome files2 ∧
  calls files1 = [setup_kwargs text].
Proof.
  intros R1 R2.
  apply read_readme_inv in R1. apply read_readme_inv in R2.
  destruct (evaluate_readme_only files1 files2) as [Ho Hc].
  - now rewrite R1, R2.
  - repeat split; [exact Hc | exact Ho | now apply calls_file].
Qed.

Lemma evaluation_deterministic_witness :
  read_readme checkout = inr "Demo package" ∧
  read_readme full_tree = inr "Demo package" ∧
  calls checkout = calls full_tree.
Proof.
  assert (R1 : read_readme checkout = inr "Demo package")
    by (vm_compute; reflexivity).
  assert (R2 : read_readme full_tree = inr "Demo package")
    by (vm_compute; reflexivity).
  split; [exact R1|]. split; [exact R2|].
  exact (proj1 (evaluation_deterministic _ _ _ R1 R2)).
Defined.

(** * Further properties of the run *)

Lemma outcome_directory files :
  files !! "README.rst" = Some Dir →
  outcome files = inl (IsADirectoryError "README.rst") ∧ calls files = [].
Proof.
  intros E. unfold outcome, calls, evaluate.
  now rewrite (setup_py_directory (World files []) E).
Qed.

(** ** Failures *)

(** X2: when "README.rst" names a directory, [open] raises
    [IsADirectoryError] for that path, the manifest does not catch it, and
    [setup] is not called: the world is left as it was. *)
Theorem readme_directory_aborts w :
  fs w !! "README.rst" = Some Dir →
  fst (setup_py w) = inl (IsADirectoryError "README.rst") ∧
  snd (setup_py w) = w ∧
  calls (fs w) = [].
Proof.
  intros E. rewrite (setup_py_directory w E).
  repeat split. now apply outcome_directory.
Qed.

Lemma readme_directory_aborts_witness :
  fs (World readme_is_dir []) !! "README.rst" = Some Dir ∧
  fst (setup_py (World readme_is_dir [])) =
    inl (IsADirectoryError "README.rst").
Proof.
  assert (E : fs (World readme_is_dir []) !! "README.rst" = Some Dir)
    by (vm_compute; reflexivity).
  split; [exact E|].
  exact (proj1 (readme_directory_aborts (World readme_is_dir []) E)).
Defined.

(** ** What the run depends on *)

(** X5: the text of the readme flows into [long_description] and into no
    other argument: any two [setup] calls of the manifest, in whatever
    working directories, agree on name, version, description, author,
    author email, url and extension list, and are the same call exactly
    when their long descriptions are equal. *)
Theorem only_long_description_varies files1 files2 kw1 kw2 :
  kw1 ∈ calls files1 → kw2 ∈ calls files2 →
  name kw1 = name kw2 ∧
  version kw1 = version kw2 ∧
  description kw1 = description kw2 ∧
  author kw1 = author kw2 ∧
  author_email kw1 = author_email kw2 ∧
  url kw1 = url kw2 ∧
  ext_modules kw1 = ext_modules kw2 ∧
  (kw1 = kw2 ↔ long_description kw1 = long_description kw2).
Proof.
  intros H1 H2.
  destruct (calls_inv _ _ H1) as (t1 & _ & ->).
  destruct (calls_inv _ _ H2) as (t2 & _ & ->).
  repeat split; simpl.
  - intros Heq. now apply (f_equal long_description) in Heq.
  - now intros ->.
Qed.

Lemma only_long_description_varies_witness :
  setup_kwargs "Demo package" ∈ calls checkout ∧
  setup_kwargs "" ∈ calls blank_readme ∧
  version (setup_kwargs "Demo package") = version (setup_kwargs "") ∧
  long_description (setup_kwargs "Demo package") ≠
    long_description (setup_kwargs "").
Proof.
  assert (H1 : setup_kwargs "Demo package" ∈ calls checkout)
    by (vm_compute; left).
  assert (H2 : setup_kwargs "" ∈ calls blank_readme)
    by (vm_compute; left).
  split; [exact H1|]. split; [exact H2|]. split.
  - exact (proj1 (proj2 (only_long_description_varies _ _ _ _ H1 H2))).
  - discriminate.
Defined.
